(** * hello_wasm/main.c: the Greeter ([say_hello]) and the Startup Reporter ([main])

    The translation unit defines two functions.  Each one only calls library
    routines: [printf] from <stdio.h> and [emscripten_run_script] from
    <emscripten/emscripten.h>.  The functions are embedded as terms of a small
    command monad [prog]; running a term against a platform yields the list of
    requests the function issued, in order, together with its return value. *)

From Stdlib Require Import String Ascii List ZArith Bool Lia.
From ExtLib Require Import Structures.Monad.
Import ListNotations.
Import MonadNotation.
Local Open Scope string_scope.
Local Open Scope list_scope.
Local Open Scope monad_scope.

Set Implicit Arguments.

(** ** Characters and text *)

(** The C escape [\n]. *)
Definition LF : ascii := ascii_of_nat 10.

(** A one-character string holding the line terminator, so that the C literal
    ["...\n"] is written ["..." ++ nl]. *)
Definition nl : string := String LF EmptyString.

Module Stdio.

(** The characters [printf] transmits for [format] when the call passes no
    argument after the format: ordinary characters are copied, [%%] stands
    for one percent sign, and any other conversion specification has no
    argument to consume, which the C standard leaves undefined ([None]). *)
Fixpoint format_text (format : string) : option string :=
  match format with
  | EmptyString => Some EmptyString
  | String c rest =>
      if Ascii.eqb c "%" then
        match rest with
        | String d rest' =>
            if Ascii.eqb d "%"
            then option_map (String "%") (format_text rest')
            else None
        | EmptyString => None
        end
      else option_map (String c) (format_text rest)
  end.

(** Splitting a stream's content at line terminators: the complete lines
    (terminator removed), and the characters after the last terminator. *)
Fixpoint lines_from (current text : string) : list string * string :=
  match text with
  | EmptyString => ([], current)
  | String c rest =>
      if Ascii.eqb c LF
      then let (ls, r) := lines_from EmptyString rest in (current :: ls, r)
      else lines_from (current ++ String c EmptyString) rest
  end.

Definition lines (text : string) : list string * string :=
  lines_from EmptyString text.

(** No conversion specification occurs in the format. *)
Fixpoint percent_free (s : string) : bool :=
  match s with
  | EmptyString => true
  | String c rest => negb (Ascii.eqb c "%") && percent_free rest
  end.

End Stdio.

(** ** Requests to the platform *)

(** What the translation unit can ask of its surroundings: characters handed
    to the standard output stream, and a script handed to the host for
    evaluation. *)
Inductive event : Type :=
| Stdout (text : string)
| RunScript (script : string).

Definition event_eqb (a b : event) : bool :=
  match a, b with
  | Stdout s, Stdout t => String.eqb s t
  | RunScript s, RunScript t => String.eqb s t
  | _, _ => false
  end.

(** Everything written to standard output by a sequence of requests. *)
Fixpoint stdout_text (t : list event) : string :=
  match t with
  | [] => EmptyString
  | Stdout s :: t' => s ++ stdout_text t'
  | RunScript _ :: t' => stdout_text t'
  end.

(** The scripts handed to the host, in order. *)
Fixpoint script_requests (t : list event) : list string :=
  match t with
  | [] => []
  | Stdout _ :: t' => script_requests t'
  | RunScript s :: t' => s :: script_requests t'
  end.

(** ** Commands *)

(** A C function body of the kind found in main.c, as a tree of the actions it
    may take: return a value, call one of the two library routines and go on
    with the answer, or read or write an object of static storage duration.
    [Undef] is a step whose behaviour C leaves undefined. *)
Inductive prog (A : Type) : Type :=
| Ret (a : A)
| Undef
| Put (text : string) (k : Z -> prog A)
| Script (script : string) (k : unit -> prog A)
| Load (x : string) (k : Z -> prog A)
| Store (x : string) (v : Z) (k : unit -> prog A).

Arguments Ret {A} a.
Arguments Undef {A}.

Fixpoint bind_prog {A B : Type} (c : prog A) (f : A -> prog B) : prog B :=
  match c with
  | Ret a => f a
  | Undef => Undef
  | Put text k => Put text (fun n => bind_prog (k n) f)
  | Script script k => Script script (fun u => bind_prog (k u) f)
  | Load x k => Load x (fun v => bind_prog (k v) f)
  | Store x v k => Store x v (fun u => bind_prog (k u) f)
  end.

#[export] Instance Monad_prog : Monad prog :=
  {| ret := @Ret; bind := @bind_prog |}.

(** [int printf(const char *format, ...)], called with the format alone.  The
    value it returns (a character count, or a negative number when the
    stream fails) is the platform's answer. *)
Definition printf (format : string) : prog Z :=
  match Stdio.format_text format with
  | Some text => Put text (fun n => Ret n)
  | None => Undef
  end.

(** [void emscripten_run_script(const char *script)]. *)
Definition emscripten_run_script (script : string) : prog unit :=
  Script script (fun u => Ret u).

(** ** The two functions of main.c *)

(** [EMSCRIPTEN_KEEPALIVE void say_hello(void)]: the parameter list [(void)]
    is the one-point type, and so is the result type [void]. *)
Definition say_hello (_ : unit) : prog unit :=
  printf ("Hello, World from WebAssembly!" ++ nl) ;;
  emscripten_run_script "console.log('Hello, World from WebAssembly!');".

(** [int main(void)]. *)
Definition main (_ : unit) : prog Z :=
  printf ("Hello, World (startup)" ++ nl) ;;
  ret 0%Z.

(** ** Running a command *)

(** The platform decides what [printf] returns; its answer may depend on the
    requests made so far and on the text of the present one. *)
Record platform : Type := { printf_result : list event -> string -> Z }.

(** Objects of static storage duration, by name.  main.c declares none. *)
Definition statics : Type := string -> Z.

Definition update (m : statics) (x : string) (v : Z) : statics :=
  fun y => if String.eqb x y then v else m y.

(** C initialises static storage to zero. *)
Definition zeroed : statics := fun _ => 0%Z.

Inductive outcome (A : Type) : Type :=
| Normal (result : A) (memory : statics) (emitted : list event)
| Wrong.

Arguments Wrong {A}.

Section Run.

Variable P : platform.

(** [run c m past]: execute [c] with static storage [m], after the requests
    [past] have already been made to the platform.  The outcome lists the
    requests made by [c] itself. *)
Fixpoint run {A : Type} (c : prog A) (m : statics) (past : list event)
  : outcome A :=
  match c with
  | Ret a => Normal a m []
  | Undef => Wrong
  | Put text k =>
      match run (k (printf_result P past text)) m (past ++ [Stdout text]) with
      | Normal a m' evs => Normal a m' (Stdout text :: evs)
      | Wrong => Wrong
      end
  | Script script k =>
      match run (k tt) m (past ++ [RunScript script]) with
      | Normal a m' evs => Normal a m' (RunScript script :: evs)
      | Wrong => Wrong
      end
  | Load x k => run (k (m x)) m past
  | Store x v k => run (k tt) (update m x v) past
  end.

End Run.

Definition events_of {A : Type} (o : outcome A) : list event :=
  match o with
  | Normal _ _ evs => evs
  | Wrong => []
  end.

Definition result_of {A : Type} (o : outcome A) : option A :=
  match o with
  | Normal a _ _ => Some a
  | Wrong => None
  end.

Definition went_wrong {A : Type} (o : outcome A) : bool :=
  match o with
  | Normal _ _ _ => false
  | Wrong => true
  end.

(** The requests of one call of [say_hello], and of one call of [main]. *)
Definition greeting_events : list event :=
  [ Stdout ("Hello, World from WebAssembly!" ++ nl);
    RunScript "console.log('Hello, World from WebAssembly!');" ].

Definition startup_events : list event :=
  [ Stdout ("Hello, World (startup)" ++ nl) ].

(** ** The host's reading of a script *)

Module Host.

Fixpoint strip_prefix (prefix s : string) : option string :=
  match prefix with
  | EmptyString => Some s
  | String p prefix' =>
      match s with
      | String c s' => if Ascii.eqb p c then strip_prefix prefix' s' else None
      | EmptyString => None
      end
  end.

Definition backslash : ascii := ascii_of_nat 92.

(** The characters of a single-quoted script literal whose opening quote
    has been read, and what follows its closing quote.  Only literals
    without escape sequences are read: they denote their own characters. *)
Fixpoint quoted (s : string) : option (string * string) :=
  match s with
  | EmptyString => None
  | String c s' =>
      if Ascii.eqb c "'" then Some (EmptyString, s')
      else if Ascii.eqb c backslash || Ascii.eqb c LF then None
      else
        match quoted s' with
        | Some (lit, tail) => Some (String c lit, tail)
        | None => None
        end
  end.

(** The text a script of the form [console.log('<text>');] logs. *)
Definition console_log_argument (script : string) : option string :=
  match strip_prefix "console.log('" script with
  | Some rest =>
      match quoted rest with
      | Some (lit, tail) => if String.eqb tail ");" then Some lit else None
      | None => None
      end
  | None => None
  end.

End Host.

(** ** The process and the host as callers *)

(** What a hosted C process is started with. *)
Record invocation : Type :=
  { argv : list string; envp : list string; stdin : string }.

Definition EXIT_SUCCESS : Z := 0%Z.

Record termination : Type :=
  { output : list event; exit_status : Z }.

(** Process start: static storage is zeroed, nothing has been requested yet,
    [main] is called, and the value it returns is the exit status.  [main]
    is declared [(void)], so the invocation's data never reaches it. *)
Definition process (P : platform) (i : invocation) : option termination :=
  match run P (main tt) zeroed [] with
  | Normal status _ evs => Some {| output := evs; exit_status := status |}
  | Wrong => None
  end.

(** A host calling an exported [void f(void)] function [n] times in a row. *)
Fixpoint call_times (n : nat) (f : unit -> prog unit) : prog unit :=
  match n with
  | O => ret tt
  | S n' => f tt ;; call_times n' f
  end.

(** The two operations of the module, and a caller-chosen sequence of them.
    The value an operation hands back is [None] for [void]. *)
Inductive operation : Type := Greeter | StartupReporter.

Definition perform (o : operation) : prog (option Z) :=
  match o with
  | Greeter => say_hello tt ;; ret None
  | StartupReporter => status <- main tt ;; ret (Some status)
  end.

Fixpoint perform_all (os : list operation) : prog unit :=
  match os with
  | [] => ret tt
  | o :: os' => perform o ;; perform_all os'
  end.

Definition behaviour (o : operation) : list event :=
  match o with
  | Greeter => greeting_events
  | StartupReporter => startup_events
  end.

Definition answer (o : operation) : option Z :=
  match o with
  | Greeter => None
  | StartupReporter => Some 0%Z
  end.

(** ** Shapes of commands *)

(** A command is straight-line when it is a fixed chain of library calls
    ended by a return: every continuation goes on with the same command [c]
    whatever answer it receives, so there is nothing to branch on, and the
    chain has [n] calls. *)
Inductive straight_line {A : Type} : prog A -> nat -> Prop :=
| sl_ret : forall a, straight_line (Ret a) 0
| sl_put : forall text k c n,
    (forall z, k z = c) -> straight_line c n ->
    straight_line (Put text k) (S n)
| sl_script : forall script k c n,
    (forall u, k u = c) -> straight_line c n ->
    straight_line (Script script k) (S n).

(** A command is static-free when no path through it reads or writes an
    object of static storage duration. *)
Inductive static_free {A : Type} : prog A -> Prop :=
| sf_ret : forall a, static_free (Ret a)
| sf_undef : static_free Undef
| sf_put : forall text k,
    (forall n, static_free (k n)) -> static_free (Put text k)
| sf_script : forall script k,
    (forall u, static_free (k u)) -> static_free (Script script k).

(** [occurs e t]: the request [e] is among the requests [t]. *)
Definition occurs (e : event) (t : list event) : bool :=
  existsb (event_eqb e) t.

(** No request of [t1] is among the requests [t2]. *)
Definition no_common_event (t1 t2 : list event) : bool :=
  forallb (fun e => negb (occurs e t2)) t1.

(** A platform whose standard output is unusable: every [printf] reports
    failure by a negative value. *)
Definition failing_stdout : platform :=
  {| printf_result := fun _ _ => (-1)%Z |}.

(** ** One step at a time *)

Definition config (A : Type) : Type := (prog A * statics * list event)%type.

(** One action of the command at the head of a configuration; a command that
    has returned, or whose behaviour is undefined, takes no step. *)
Definition step {A : Type} (P : platform) (cfg : config A) : option (config A) :=
  let '(c, m, past) := cfg in
  match c with
  | Ret _ => None
  | Undef => None
  | Put text k => Some (k (printf_result P past text), m, past ++ [Stdout text])
  | Script script k => Some (k tt, m, past ++ [RunScript script])
  | Load x k => Some (k (m x), m, past)
  | Store x v k => Some (k tt, update m x v, past)
  end.

Fixpoint steps {A : Type} (P : platform) (n : nat) (cfg : config A)
  : option (config A) :=
  match n with
  | O => Some cfg
  | S n' =>
      match step P cfg with
      | Some cfg' => steps P n' cfg'
      | None => None
      end
  end.

(** ** Sequences of operations seen from the two sinks *)

(** The line an operation's [printf] format spells, without its terminator. *)
Definition line_of (o : operation) : string :=
  match o with
  | Greeter => "Hello, World from WebAssembly!"
  | StartupReporter => "Hello, World (startup)"
  end.

(** The latest complete line of a stream's content, when the content ends
    at a line boundary. *)
Definition latest_line (text : string) : option string :=
  let (ls, r) := Stdio.lines text in
  match r, rev ls with
  | EmptyString, l :: _ => Some l
  | _, _ => None
  end.

(** Two texts that are both present and equal. *)
Definition same_text (a b : option string) : bool :=
  match a, b with
  | Some x, Some y => String.eqb x y
  | _, _ => false
  end.

(** [in_step shown t]: walking the requests [t] from the moment standard
    output holds [shown], every script handed to the host logs the text that
    is, at that moment, the latest complete line of standard output. *)
Fixpoint in_step (shown : string) (t : list event) : bool :=
  match t with
  | [] => true
  | Stdout s :: t' => in_step (shown ++ s) t'
  | RunScript s :: t' =>
      same_text (Host.console_log_argument s) (latest_line shown)
      && in_step shown t'
  end.

(** * Properties *)

(** ** General facts about the model *)

Lemma event_eqb_eq : forall a b : event, event_eqb a b = true <-> a = b.
Proof.
  intros [s | s] [t | t]; simpl; split; intro H;
    try discriminate; try (apply String.eqb_eq in H; congruence);
    inversion H; apply String.eqb_refl.
Qed.

Lemma occurs_In : forall e t, occurs e t = true <-> In e t.
Proof.
  intros e t. unfold occurs. rewrite existsb_exists. split.
  - intros [x [Hin Heq]]. apply event_eqb_eq in Heq. now subst.
  - intro Hin. exists e. split; [assumption | now apply event_eqb_eq].
Qed.

(** A format without a percent sign is transmitted as it stands. *)
Lemma format_text_plain :
  forall s, Stdio.percent_free s = true -> Stdio.format_text s = Some s.
Proof.
  induction s as [| c rest IH]; simpl; intro H.
  - reflexivity.
  - apply andb_true_iff in H. destruct H as [Hc Hrest].
    destruct (Ascii.eqb c "%"); [discriminate |].
    now rewrite (IH Hrest).
Qed.

(** The text helpers on inputs other than the program's literals. *)
Example format_text_escaped_percent :
  Stdio.format_text "100%%" = Some "100%".
Proof. reflexivity. Qed.

Example format_text_missing_argument : Stdio.format_text "%d" = None.
Proof. reflexivity. Qed.

Example lines_unterminated :
  Stdio.lines ("a" ++ nl ++ "b") = (["a"], "b").
Proof. reflexivity. Qed.

Example console_log_argument_other_script :
  Host.console_log_argument "alert('x');" = None.
Proof. reflexivity. Qed.

(** The shape predicates do exclude commands: one that tests what [printf]
    returned is not straight-line, and one that writes a static object is not
    static-free. *)
Remark branching_not_straight_line :
  forall n,
    ~ straight_line
        (Put "x" (fun z => if (z <? 0)%Z then Ret 1%Z else Ret 0%Z)) n.
Proof.
  intros n H. inversion H as [| text k c n' Hk Hc |]; subst.
  pose proof (Hk 0%Z) as H0. pose proof (Hk (-1)%Z) as H1.
  simpl in H0, H1. congruence.
Qed.

Remark store_not_static_free :
  ~ static_free (Store "counter" 1%Z (fun _ => Ret tt)).
Proof. intro H. inversion H. Qed.

Section RunFacts.

Variable P : platform.

(** Sequencing: the second command starts in the memory the first one left
    and after the requests the first one made. *)
Lemma run_bind :
  forall (A B : Type) (c : prog A) (f : A -> prog B) m past,
    run P (bind c f) m past =
    match run P c m past with
    | Normal a m' e1 =>
        match run P (f a) m' (past ++ e1) with
        | Normal b m'' e2 => Normal b m'' (e1 ++ e2)
        | Wrong => Wrong
        end
    | Wrong => Wrong
    end.
Proof.
  intros A B c f. change (bind c f) with (bind_prog c f).
  induction c as [a | | text k IH | script k IH | x k IH | x v k IH];
    intros m past; simpl.
  - rewrite app_nil_r. now destruct (run P (f a) m past).
  - reflexivity.
  - rewrite IH.
    destruct (run P (k (printf_result P past text)) m (past ++ [Stdout text]))
      as [a m' e1 |]; [| reflexivity].
    rewrite <- app_assoc. simpl.
    now destruct (run P (f a) m' (past ++ Stdout text :: e1)).
  - rewrite IH.
    destruct (run P (k tt) m (past ++ [RunScript script]))
      as [a m' e1 |]; [| reflexivity].
    rewrite <- app_assoc. simpl.
    now destruct (run P (f a) m' (past ++ RunScript script :: e1)).
  - apply IH.
  - apply IH.
Qed.

(** A static-free command leaves static storage as it found it, and what it
    does is the same whatever that storage holds. *)
Lemma static_free_frame :
  forall (A : Type) (c : prog A),
    static_free c ->
    forall m past,
      match run P c m past with
      | Normal a m' evs =>
          m' = m /\ forall m0, run P c m0 past = Normal a m0 evs
      | Wrong => forall m0, run P c m0 past = Wrong
      end.
Proof.
  intros A c. induction c as [a | | text k IH | script k IH | x k IH | x v k IH];
    intros Hsf m past; simpl.
  - split; reflexivity.
  - reflexivity.
  - assert (Hk : forall n, static_free (k n)).
    { inversion Hsf. assumption. }
    specialize (IH (printf_result P past text) (Hk _) m (past ++ [Stdout text])).
    destruct (run P (k (printf_result P past text)) m (past ++ [Stdout text]))
      as [a m' evs |].
    + destruct IH as [Hm Hall]. split; [assumption |].
      intro m0. now rewrite Hall.
    + intro m0. now rewrite IH.
  - assert (Hk : forall u, static_free (k u)) by (inversion Hsf; assumption).
    specialize (IH tt (Hk _) m (past ++ [RunScript script])).
    destruct (run P (k tt) m (past ++ [RunScript script])) as [a m' evs |].
    + destruct IH as [Hm Hall]. split; [assumption |].
      intro m0. now rewrite Hall.
    + intro m0. now rewrite IH.
  - inversion Hsf.
  - inversion Hsf.
Qed.

(** A straight-line command of [n] calls returns, having made exactly [n]
    requests. *)
Lemma straight_line_runs :
  forall (A : Type) (c : prog A) (n : nat),
    straight_line c n ->
    forall m past,
      went_wrong (run P c m past) = false
      /\ length (events_of (run P c m past)) = n.
Proof.
  intros A c n H.
  induction H as [a | text k c n Hk H IH | script k c n Hk H IH];
    intros m past; simpl.
  - split; reflexivity.
  - rewrite Hk. destruct (IH m (past ++ [Stdout text])) as [Hw Hl].
    destruct (run P c m (past ++ [Stdout text])); [| discriminate].
    simpl in *. split; [reflexivity | now rewrite Hl].
  - rewrite Hk. destruct (IH m (past ++ [RunScript script])) as [Hw Hl].
    destruct (run P c m (past ++ [RunScript script])); [| discriminate].
    simpl in *. split; [reflexivity | now rewrite Hl].
Qed.

(** The two functions, run from any memory after any earlier requests. *)
Lemma run_say_hello :
  forall u m past, run P (say_hello u) m past = Normal tt m greeting_events.
Proof. intros u m past. reflexivity. Qed.

Lemma run_main :
  forall u m past, run P (main u) m past = Normal 0%Z m startup_events.
Proof. intros u m past. reflexivity. Qed.

Lemma run_perform :
  forall o m past, run P (perform o) m past = Normal (answer o) m (behaviour o).
Proof. intros [|] m past; reflexivity. Qed.

End RunFacts.

(** ** The Greeter *)

(** C1: one call of [say_hello], whatever the platform answers and whatever
    came before, makes exactly two requests in this order: the line
    [Hello, World from WebAssembly!] with its terminator on standard output,
    then the script [console.log('Hello, World from WebAssembly!');] to the
    host.  It makes no other request, returns nothing and leaves static
    storage as it was. *)
Theorem say_hello_effects :
  forall (P : platform) (m : statics) (past : list event),
    run P (say_hello tt) m past
    = Normal tt m
        [ Stdout ("Hello, World from WebAssembly!" ++ nl);
          RunScript "console.log('Hello, World from WebAssembly!');" ]
    /\ Stdio.lines (stdout_text (events_of (run P (say_hello tt) m past)))
       = (["Hello, World from WebAssembly!"], EmptyString)
    /\ script_requests (events_of (run P (say_hello tt) m past))
       = ["console.log('Hello, World from WebAssembly!');"].
Proof.
  intros P m past. rewrite run_say_hello. split; [reflexivity |].
  split; reflexivity.
Qed.

(** C3: [n] calls of [say_hello] in a row make the requests of one call [n]
    times over and leave static storage untouched; a call made after [n]
    earlier calls has the same outcome as a first call. *)
Theorem say_hello_repeated :
  forall (n : nat) (P : platform) (m : statics) (past : list event),
    run P (call_times n say_hello) m past
    = Normal tt m (concat (repeat greeting_events n))
    /\ run P (say_hello tt) m (past ++ concat (repeat greeting_events n))
       = run P (say_hello tt) m past.
Proof.
  intros n P m past. split; [| now rewrite !run_say_hello].
  revert past. induction n as [| n IH]; intro past.
  - reflexivity.
  - change (call_times (S n) say_hello)
      with (bind (say_hello tt) (fun _ : unit => call_times n say_hello)).
    rewrite run_bind, run_say_hello, IH. reflexivity.
Qed.

(** C6: [say_hello] takes its argument from the one-point type and returns
    into the one-point type: whichever argument the caller passes, the
    command and its outcome are the same, and every value of the result type
    is the value returned. *)
Theorem say_hello_signature :
  forall (x y : unit) (P : platform) (m : statics) (past : list event),
    say_hello x = say_hello y
    /\ run P (say_hello x) m past = run P (say_hello y) m past
    /\ forall r : unit, result_of (run P (say_hello x) m past) = Some r.
Proof.
  intros [] [] P m past. split; [reflexivity |]. split; [reflexivity |].
  intros []. reflexivity.
Qed.

(** C9: in one call of [say_hello] the line written to standard output,
    without its terminator, is the text of the string literal that the
    script handed to the host passes to [console.log]. *)
Theorem same_greeting_on_both_sinks :
  forall (P : platform) (m : statics) (past : list event),
    exists greeting : string,
      Stdio.lines (stdout_text (events_of (run P (say_hello tt) m past)))
      = ([greeting], EmptyString)
      /\ map Host.console_log_argument
           (script_requests (events_of (run P (say_hello tt) m past)))
         = [Some greeting]
      /\ greeting = "Hello, World from WebAssembly!".
Proof.
  intros P m past. exists "Hello, World from WebAssembly!".
  rewrite run_say_hello. split; [reflexivity |]. split; reflexivity.
Qed.

(** ** The Startup Reporter *)

(** C2: [main] writes the one line [Hello, World (startup)] to standard
    output and returns 0; a process therefore ends with that single request
    as its whole output and with the successful exit status. *)
Theorem main_effects :
  forall (P : platform) (m : statics) (past : list event) (i : invocation),
    run P (main tt) m past
    = Normal 0%Z m [ Stdout ("Hello, World (startup)" ++ nl) ]
    /\ Stdio.lines (stdout_text (events_of (run P (main tt) m past)))
       = (["Hello, World (startup)"], EmptyString)
    /\ process P i
       = Some {| output := [ Stdout ("Hello, World (startup)" ++ nl) ];
                 exit_status := EXIT_SUCCESS |}.
Proof.
  intros P m past i. rewrite run_main. split; [reflexivity |].
  split; [reflexivity |]. unfold process. rewrite run_main. reflexivity.
Qed.

(** C4: two runs of the process agree in everything observable, whatever
    their argument vectors, environments, standard inputs and platforms:
    the same single line on standard output and the successful status. *)
Theorem process_deterministic :
  forall (P1 P2 : platform) (i1 i2 : invocation),
    process P1 i1 = process P2 i2
    /\ option_map (fun t => Stdio.lines (stdout_text (output t))) (process P1 i1)
       = Some (["Hello, World (startup)"], EmptyString)
    /\ option_map exit_status (process P1 i1) = Some EXIT_SUCCESS.
Proof.
  intros P1 P2 i1 i2. unfold process. rewrite !run_main.
  split; [reflexivity |]. split; reflexivity.
Qed.

(** C5: a process on its own ends successfully after a single request, the
    startup line on standard output: there is no script request, and no
    request that a call of [say_hello] makes is among its output. *)
Theorem process_only_startup :
  forall (P : platform) (i : invocation),
    exists t : termination,
      process P i = Some t
      /\ output t = [ Stdout ("Hello, World (startup)" ++ nl) ]
      /\ exit_status t = EXIT_SUCCESS
      /\ script_requests (output t) = []
      /\ forall (P' : platform) (m : statics) (past : list event),
           no_common_event (events_of (run P' (say_hello tt) m past)) (output t)
           = true.
Proof.
  intros P i. unfold process. rewrite run_main.
  eexists. split; [reflexivity |]. cbn [output exit_status].
  split; [reflexivity |]. split; [reflexivity |]. split; [reflexivity |].
  intros P' m past. rewrite run_say_hello. reflexivity.
Qed.

(** ** Both operations *)

(** C7: neither function goes wrong, and neither looks at what the platform
    answers: the outcome is the same under any two platforms, and when every
    [printf] reports failure [main] still returns 0 and [say_hello] still
    makes its script request. *)
Theorem no_error_surfaced :
  forall (P P' : platform) (m : statics) (past : list event),
    went_wrong (run P (say_hello tt) m past) = false
    /\ went_wrong (run P (main tt) m past) = false
    /\ run P (say_hello tt) m past = run P' (say_hello tt) m past
    /\ run P (main tt) m past = run P' (main tt) m past
    /\ result_of (run failing_stdout (main tt) m past) = Some EXIT_SUCCESS
    /\ run failing_stdout (say_hello tt) m past = Normal tt m greeting_events.
Proof.
  intros P P' m past. rewrite !run_say_hello, !run_main.
  repeat (split; [reflexivity |]). reflexivity.
Qed.

(** C8: each function is a fixed chain of library calls ended by a return
    (two calls in [say_hello], one in [main]) in which no continuation
    inspects an answer; from any configuration [say_hello] has returned
    after two steps and [main] after one, and no step follows. *)
Theorem operations_straight_line :
  straight_line (say_hello tt) 2
  /\ straight_line (main tt) 1
  /\ forall (P : platform) (m : statics) (past : list event),
       steps P 2 (say_hello tt, m, past)
       = Some (Ret tt, m, past ++ greeting_events)
       /\ steps P 3 (say_hello tt, m, past) = None
       /\ steps P 1 (main tt, m, past)
          = Some (Ret 0%Z, m, past ++ startup_events)
       /\ steps P 2 (main tt, m, past) = None
       /\ went_wrong (run P (say_hello tt) m past) = false
       /\ went_wrong (run P (main tt) m past) = false
       /\ length (events_of (run P (say_hello tt) m past)) = 2
       /\ length (events_of (run P (main tt) m past)) = 1.
Proof.
  assert (Hgreeter : straight_line (say_hello tt) 2).
  { apply sl_put
      with (c := emscripten_run_script
                   "console.log('Hello, World from WebAssembly!');");
      [intro z; reflexivity |].
    apply sl_script with (c := Ret tt); [intros []; reflexivity | apply sl_ret]. }
  assert (Hmain : straight_line (main tt) 1).
  { apply sl_put with (c := Ret 0%Z); [intro z; reflexivity | apply sl_ret]. }
  split; [exact Hgreeter |]. split; [exact Hmain |].
  intros P m past.
  destruct (straight_line_runs P Hgreeter m past) as [Hw2 Hl2].
  destruct (straight_line_runs P Hmain m past) as [Hw1 Hl1].
  rewrite Hw2, Hw1, Hl2, Hl1. cbn [steps step say_hello main].
  simpl. rewrite <- app_assoc.
  repeat (split; [reflexivity |]). reflexivity.
Qed.

(** C10: neither function reads or writes static storage, so every sequence
    of operations leaves it as it was; each operation answers and requests
    the same whatever ran before it, however often, and whatever static
    storage holds. *)
Theorem no_mutable_state :
  static_free (say_hello tt)
  /\ static_free (main tt)
  /\ forall (P : platform) (os : list operation) (o : operation)
            (m : statics) (past : list event),
       run P (perform_all os) m past
       = Normal tt m (concat (map behaviour os))
       /\ run P (perform_all os ;; perform o) m past
          = Normal (answer o) m (concat (map behaviour os) ++ behaviour o)
       /\ run P (perform o) m past = Normal (answer o) m (behaviour o).
Proof.
  split; [| split].
  - apply sf_put. intro n. apply sf_script. intro u. apply sf_ret.
  - apply sf_put. intro n. apply sf_ret.
  - intros P os o m past.
    assert (Hall : forall past',
               run P (perform_all os) m past'
               = Normal tt m (concat (map behaviour os))).
    { induction os as [| o' os IH]; intro past'.
      - reflexivity.
      - change (perform_all (o' :: os))
          with (bind (perform o') (fun _ : option Z => perform_all os)).
        rewrite run_bind, run_perform, IH. reflexivity. }
    split; [apply Hall |]. split; [| apply run_perform].
    rewrite run_bind, Hall, run_perform. reflexivity.
Qed.

(** ** Sequences of operations *)

Lemma string_app_assoc :
  forall a b c : string, ((a ++ b) ++ c)%string = (a ++ (b ++ c))%string.
Proof.
  induction a as [| x a IH]; intros b c; simpl.
  - reflexivity.
  - now rewrite IH.
Qed.

Lemma stdout_text_app :
  forall t1 t2,
    stdout_text (t1 ++ t2) = (stdout_text t1 ++ stdout_text t2)%string.
Proof.
  induction t1 as [| [s | s] t1 IH]; intro t2; simpl.
  - reflexivity.
  - now rewrite IH, string_app_assoc.
  - apply IH.
Qed.

Lemma script_requests_app :
  forall t1 t2,
    script_requests (t1 ++ t2) = script_requests t1 ++ script_requests t2.
Proof.
  induction t1 as [| [s | s] t1 IH]; intro t2; simpl.
  - reflexivity.
  - apply IH.
  - now rewrite IH.
Qed.

(** Splitting a text made of two parts: the second part is split starting
    from what the first part left unterminated. *)
Lemma lines_from_app :
  forall a current b,
    Stdio.lines_from current (a ++ b) =
    let (la, ra) := Stdio.lines_from current a in
    let (lb, rb) := Stdio.lines_from ra b in
    (la ++ lb, rb).
Proof.
  induction a as [| c a IH]; intros current b; simpl.
  - now destruct (Stdio.lines_from current b).
  - destruct (Ascii.eqb c LF).
    + rewrite IH. destruct (Stdio.lines_from "" a) as [la ra].
      now destruct (Stdio.lines_from ra b).
    + apply IH.
Qed.

(** Every operation writes exactly its line, terminator included. *)
Lemma stdout_text_behaviour :
  forall o, stdout_text (behaviour o) = (line_of o ++ nl)%string.
Proof. intros [|]; reflexivity. Qed.

Lemma lines_line_of :
  forall o, Stdio.lines_from "" (line_of o ++ nl) = ([line_of o], "").
Proof. intros [|]; reflexivity. Qed.

Lemma lines_behaviours :
  forall os,
    Stdio.lines (stdout_text (concat (map behaviour os)))
    = (map line_of os, "").
Proof.
  unfold Stdio.lines. induction os as [| o os IH].
  - reflexivity.
  - cbn [map concat]. rewrite stdout_text_app, stdout_text_behaviour.
    rewrite lines_from_app, lines_line_of, IH. reflexivity.
Qed.

Lemma run_perform_all :
  forall P os m past,
    run P (perform_all os) m past = Normal tt m (concat (map behaviour os)).
Proof.
  intros P os m. induction os as [| o os IH]; intro past.
  - reflexivity.
  - change (perform_all (o :: os))
      with (bind (perform o) (fun _ : option Z => perform_all os)).
    rewrite run_bind, run_perform, IH. reflexivity.
Qed.

Lemma in_step_behaviours :
  forall os shown ls,
    Stdio.lines shown = (ls, "") ->
    in_step shown (concat (map behaviour os)) = true.
Proof.
  induction os as [| o os IH]; intros shown ls Hshown.
  - reflexivity.
  - assert (Hnext : Stdio.lines (shown ++ (line_of o ++ nl))
                    = (ls ++ [line_of o], "")).
    { unfold Stdio.lines in *. rewrite lines_from_app, Hshown, lines_line_of.
      reflexivity. }
    destruct o; cbn [map concat behaviour greeting_events startup_events app
                     in_step].
    + apply andb_true_iff. split.
      * unfold latest_line. cbn [line_of] in Hnext. rewrite Hnext.
        rewrite rev_unit. reflexivity.
      * apply (IH _ _ Hnext).
    + apply (IH _ _ Hnext).
Qed.

(** [in_step] rejects a script that arrives before its line, and one that
    logs another text than the latest line. *)
Example in_step_script_first :
  in_step "" [ RunScript "console.log('x');"; Stdout ("x" ++ nl) ] = false.
Proof. reflexivity. Qed.

Example in_step_other_text :
  in_step "" [ Stdout ("x" ++ nl); RunScript "console.log('y');" ] = false.
Proof. reflexivity. Qed.

(** X1: after any sequence of calls of the two functions, in any order,
    standard output holds only complete lines, one per call and in call
    order, each being the line of the function called; nothing is left
    after the last terminator. *)
Theorem stdout_whole_lines :
  forall (P : platform) (os : list operation) (m : statics)
         (past : list event),
    Stdio.lines (stdout_text (events_of (run P (perform_all os) m past)))
    = (map line_of os, EmptyString).
Proof.
  intros P os m past. rewrite run_perform_all. apply lines_behaviours.
Qed.

(** X2: after any sequence of calls, the texts logged by the scripts handed
    to the host are, in order, the lines of standard output other than the
    startup line: the host console mirrors the greetings on standard output
    and never shows a startup line. *)
Theorem console_mirrors_stdout :
  forall (P : platform) (os : list operation) (m : statics)
         (past : list event),
    map Host.console_log_argument
      (script_requests (events_of (run P (perform_all os) m past)))
    = map Some
        (filter (fun l => negb (String.eqb l "Hello, World (startup)"))
           (fst (Stdio.lines
                   (stdout_text
                      (events_of (run P (perform_all os) m past)))))).
Proof.
  intros P os m past. rewrite run_perform_all. cbn [events_of].
  rewrite lines_behaviours. cbn [fst].
  induction os as [| o os IH].
  - reflexivity.
  - cbn [map concat]. rewrite script_requests_app, map_app, IH.
    destruct o; reflexivity.
Qed.

(** X3: in any sequence of calls, each script reaches the host only after
    its greeting has been written to standard output: at the moment of the
    script request standard output stands at a line boundary and its latest
    line is the text the script logs. *)
Theorem script_follows_its_line :
  forall (P : platform) (os : list operation) (m : statics)
         (past : list event),
    in_step EmptyString (events_of (run P (perform_all os) m past)) = true.
Proof.
  intros P os m past. rewrite run_perform_all. cbn [events_of].
  apply in_step_behaviours with (ls := []). reflexivity.
Qed.
